(** * fileconverter: the [/convert] request handler of [app.py]

    A shallow embedding of [convert_pdf]: request validation, the branch on
    the page count and the in-memory archive assembly.  The PDF rasterizer
    ([pdf2image.convert_from_bytes]), the JPEG encoder ([PIL.Image.save]) and
    the container format written by [zipfile] are external collaborators:
    they are the fields of [Externals].  The rasterizer and the encoder may
    raise; every effect observable from the handler is recorded in a trace. *)

From Stdlib Require Import String Ascii List ZArith Lia Bool Arith.
From Stdlib Require DecimalString DecimalNat Finite.
Import ListNotations.

Local Open Scope string_scope.
Local Open Scope list_scope.

(** ** Python strings

    A [str] is modelled as a [string] whose characters are the code points
    0..255.  [str.lower] maps A-Z and the Latin-1 capitals (À-Þ except ×) to
    their small letters and leaves every other code point alone. *)

Definition lower_char (c : ascii) : ascii :=
  let n := nat_of_ascii c in
  if (65 <=? n)%nat && (n <=? 90)%nat then ascii_of_nat (n + 32)
  else if (192 <=? n)%nat && (n <=? 222)%nat && negb (n =? 215)%nat
       then ascii_of_nat (n + 32)
       else c.

Fixpoint lower (s : string) : string :=
  match s with
  | EmptyString => EmptyString
  | String c s' => String (lower_char c) (lower s')
  end.

(** [s.endswith(suffix)]: the last [len(suffix)] characters of [s] are
    [suffix]; false when [s] is shorter. *)
Definition endswith (s suffix : string) : bool :=
  let n := String.length s in
  let m := String.length suffix in
  if (m <=? n)%nat then String.eqb (substring (n - m) m s) suffix else false.

(** [str(n)] for a non-negative integer. *)
Definition str_of_nat (n : nat) : string :=
  DecimalString.NilZero.string_of_uint (Nat.to_uint n).

(** The f-string [f'page_{i+1}.jpg'], as a function of the number printed. *)
Definition page_name (k : nat) : string :=
  ("page_" ++ str_of_nat k ++ ".jpg")%string.

(** ** Data model *)

Definition bytes := list Byte.byte.

(** [werkzeug.FileStorage]: the declared filename and the uploaded stream. *)
Record FileStorage := {
  filename : string;
  stream : bytes
}.

(** [bool(pdf_file)] is [bool(pdf_file.filename)]. *)
Definition FileStorage_bool (f : FileStorage) : bool :=
  negb (String.eqb (filename f) "").

(** [request.files] is a multi-dict: an ordered list of (field, file) pairs. *)
Record Request := {
  files : list (string * FileStorage)
}.

(** [request.files[key]]: the first file stored under [key]; [None] stands
    for [key not in request.files]. *)
Fixpoint getitem (d : list (string * FileStorage)) (key : string)
  : option FileStorage :=
  match d with
  | [] => None
  | (k, v) :: d' => if String.eqb k key then Some v else getitem d' key
  end.

(** A decoded page bitmap as the rasterizer hands it over. *)
Record Image := {
  width : nat;
  height : nat;
  pixels : bytes
}.

Record PyException := {
  exc_type : string;
  exc_str : string          (* [str(e)] *)
}.

Inductive Outcome (A : Type) : Type :=
| Returns (a : A)
| Raises (e : PyException).
Arguments Returns {A} a.
Arguments Raises {A} e.

(** [io.BytesIO]: the buffer and the stream position. *)
Record BytesIO := {
  bio_buf : bytes;
  bio_pos : nat
}.

Definition BytesIO_new : BytesIO := {| bio_buf := []; bio_pos := 0 |}.

(** [write] overwrites from the position, extending the buffer (and padding
    with zero bytes when the position is past the end). *)
Definition bio_write (b : BytesIO) (data : bytes) : BytesIO :=
  let padded := bio_buf b ++ repeat Byte.x00 (bio_pos b - length (bio_buf b)) in
  {| bio_buf := firstn (bio_pos b) padded ++ data
                ++ skipn (bio_pos b + length data) padded;
     bio_pos := bio_pos b + length data |}.

Definition bio_seek (b : BytesIO) (p : nat) : BytesIO :=
  {| bio_buf := bio_buf b; bio_pos := p |}.

Definition bio_getvalue (b : BytesIO) : bytes := bio_buf b.

(** [read()]: everything from the position to the end. *)
Definition bio_read (b : BytesIO) : bytes := skipn (bio_pos b) (bio_buf b).

(** [zipfile]: compression methods, member records and the archive. *)
Inductive Compression := ZIP_STORED | ZIP_DEFLATED | ZIP_BZIP2 | ZIP_LZMA.

Record ZipInfo := {
  zi_filename : string;
  zi_compress_type : Compression;
  zi_data : bytes
}.

Record ZipFile := {
  zf_mode : string;
  zf_compression : Compression;
  zf_allowZip64 : bool;
  zf_filelist : list ZipInfo
}.

(** [zipfile.ZipFile(buffer, mode, compression, allowZip64)] on an empty
    buffer: an archive without members. *)
Definition ZipFile_open (mode : string) (compression : Compression)
    (allowZip64 : bool) : ZipFile :=
  {| zf_mode := mode; zf_compression := compression;
     zf_allowZip64 := allowZip64; zf_filelist := [] |}.

(** [zf.writestr(name, data)]: a new member after the existing ones, with the
    archive's compression method.  The limits a non-Zip64 archive puts on the
    number and size of its members are outside this model: a write always
    succeeds. *)
Definition writestr (zf : ZipFile) (name : string) (data : bytes) : ZipFile :=
  {| zf_mode := zf_mode zf; zf_compression := zf_compression zf;
     zf_allowZip64 := zf_allowZip64 zf;
     zf_filelist := zf_filelist zf
                    ++ [ {| zi_filename := name;
                            zi_compress_type := zf_compression zf;
                            zi_data := data |} ] |}.


(** What the view function hands back to Flask. *)
Inductive Response :=
| TextResponse (body : string) (status : Z)
    (* [return body, status] *)
| FileResponse (body : bytes) (mimetype : string) (as_attachment : bool)
    (download_name : string).
    (* [return send_file(...)] *)

Definition status_code (r : Response) : Z :=
  match r with
  | TextResponse _ status => status
  | FileResponse _ _ _ _ => 200
  end.

(** [send_file(file_obj, mimetype=..., as_attachment=..., download_name=...)]
    streams the file object from its current position. *)
Definition send_file (b : BytesIO) (mimetype : string) (as_attachment : bool)
    (download_name : string) : Response :=
  FileResponse (bio_read b) mimetype as_attachment download_name.

(** ** External collaborators *)

Record Externals := {
  (** [pdf2image.convert_from_bytes(pdf_bytes, dpi=dpi)] *)
  convert_from_bytes : bytes -> Z -> Outcome (list Image);
  (** the bytes [img.save(fp, format=format, quality=quality)] writes to [fp] *)
  Image_encode : Image -> string -> Z -> Outcome bytes;
  (** the bytes an archive leaves in its buffer once it is closed *)
  zip_bytes : ZipFile -> bytes
}.

(** ** Effects

    The handler's observable actions, in the order they happen. *)
Inductive Event :=
| EvRead (f : FileStorage)                      (* [pdf_file.read()] *)
| EvRasterize (pdf_bytes : bytes) (dpi : Z)     (* [convert_from_bytes] *)
| EvEncode (img : Image) (format : string) (quality : Z)   (* [img.save] *)
| EvPrint (line : string).                      (* [print(line)] *)

(** A computation yields the events it performed and either a value or the
    exception that interrupted it. *)
Definition M (A : Type) : Type := (list Event * Outcome A)%type.

Definition ret {A} (a : A) : M A := ([], Returns a).

Definition bind {A B} (m : M A) (k : A -> M B) : M B :=
  match m with
  | (t, Returns a) => let (t', r) := k a in (t ++ t', r)
  | (t, Raises e) => (t, Raises e)
  end.

Definition emit (ev : Event) : M unit := ([ev], Returns tt).

Definition lift {A} (o : Outcome A) : M A := ([], o).

(** [try: body  except Exception as e: handler(e)] *)
Definition try_except {A} (body : M A) (handler : PyException -> M A) : M A :=
  match body with
  | (t, Returns a) => (t, Returns a)
  | (t, Raises e) => let (t', r) := handler e in (t ++ t', r)
  end.

Declare Scope py_scope.
Delimit Scope py_scope with py.
Notation "x <- m ;; k" := (bind m (fun x => k))
  (at level 61, m at next level, right associativity) : py_scope.
Notation "m ;;; k" := (bind m (fun _ => k))
  (at level 61, right associativity) : py_scope.
Local Open Scope py_scope.

Definition trace {A} (m : M A) : list Event := fst m.
Definition outcome {A} (m : M A) : Outcome A := snd m.

(** [enumerate(l)] *)
Fixpoint enumerate_from {A} (start : nat) (l : list A) : list (nat * A) :=
  match l with
  | [] => []
  | x :: l' => (start, x) :: enumerate_from (S start) l'
  end.

Definition enumerate {A} (l : list A) : list (nat * A) := enumerate_from 0 l.

Section Handler.

Variable ext : Externals.

(** [pdf_file.read()] *)
Definition FileStorage_read (f : FileStorage) : M bytes :=
  emit (EvRead f) ;;; ret (stream f).

Definition rasterize (pdf_bytes : bytes) (dpi : Z) : M (list Image) :=
  emit (EvRasterize pdf_bytes dpi) ;;; lift (convert_from_bytes ext pdf_bytes dpi).

(** [img.save(fp, format=format, quality=quality)] *)
Definition Image_save (img : Image) (fp : BytesIO) (format : string)
    (quality : Z) : M BytesIO :=
  emit (EvEncode img format quality) ;;;
  data <- lift (Image_encode ext img format quality) ;;
  ret (bio_write fp data).

Definition print (line : string) : M unit := emit (EvPrint line).

(** The body of [for i, img in enumerate(images):], threaded through the
    archive being written. *)
Fixpoint write_pages (zf : ZipFile) (items : list (nat * Image)) : M ZipFile :=
  match items with
  | [] => ret zf
  | (i, img) :: rest =>
      let img_byte_arr := BytesIO_new in
      img_byte_arr <- Image_save img img_byte_arr "JPEG" 85 ;;
      let img_byte_arr := bio_seek img_byte_arr 0 in
      let zf := writestr zf (page_name (i + 1)) (bio_getvalue img_byte_arr) in
      write_pages zf rest
  end.

(** The statements under [try:]. *)
Definition convert_body (pdf_file : FileStorage) : M Response :=
  pdf_bytes <- FileStorage_read pdf_file ;;
  images <- rasterize pdf_bytes 150 ;;
  match images with
  | [] => ret (TextResponse "Could not convert PDF to images. Ensure PDF is valid." 500)
  | img0 :: _ =>
      if (length images =? 1)%nat then
        let img_byte_arr := BytesIO_new in
        img_byte_arr <- Image_save img0 img_byte_arr "JPEG" 85 ;;
        let img_byte_arr := bio_seek img_byte_arr 0 in
        ret (send_file img_byte_arr "image/jpeg" true "converted_page_1.jpg")
      else
        let zip_buffer := BytesIO_new in
        zf <- write_pages (ZipFile_open "a" ZIP_DEFLATED false) (enumerate images) ;;
        let zip_buffer := bio_write zip_buffer (zip_bytes ext zf) in
        let zip_buffer := bio_seek zip_buffer 0 in
        ret (send_file zip_buffer "application/zip" true "converted_pages.zip")
  end.

(** The [except Exception as e:] clause. *)
Definition convert_handler (e : PyException) : M Response :=
  print ("Error during PDF conversion: " ++ exc_str e)%string ;;;
  ret (TextResponse ("An error occurred during conversion: " ++ exc_str e)%string 500).

Definition convert_pdf (request : Request) : M Response :=
  match getitem (files request) "pdfFile" with
  | None => ret (TextResponse "No PDF file part in the request" 400)
  | Some pdf_file =>
      if String.eqb (filename pdf_file) "" then
        ret (TextResponse "No selected file" 400)
      else if FileStorage_bool pdf_file
              && endswith (lower (filename pdf_file)) ".pdf" then
        try_except (convert_body pdf_file) convert_handler
      else
        ret (TextResponse "Invalid file type. Please upload a PDF." 400)
  end.

End Handler.

(** ** Vocabulary of the specification *)

(** A filename "ends, case-insensitively, in .pdf": its last four characters
    are a dot followed by p, d and f, each in either case. *)
Definition is_letter (small capital c : ascii) : bool :=
  Ascii.eqb c small || Ascii.eqb c capital.

Definition has_pdf_extension (name : string) : bool :=
  match List.rev (list_ascii_of_string name) with
  | c3 :: c2 :: c1 :: c0 :: _ =>
      Ascii.eqb c0 "." && is_letter "p" "P" c1 && is_letter "d" "D" c2
      && is_letter "f" "F" c3
  | _ => false
  end.

(** An upload that passes validation: the [pdfFile] field is there and its
    filename ends in .pdf (so it is not empty either). *)
Definition valid_upload (request : Request) (f : FileStorage) : Prop :=
  getitem (files request) "pdfFile" = Some f /\
  has_pdf_extension (filename f) = true.

(** The three validation checks, in the order the specification lists them,
    and the message each one answers with. *)
Inductive ValidationCheck := FieldPresent | FilenameNonEmpty | ExtensionIsPdf.

Definition check_message (c : ValidationCheck) : string :=
  match c with
  | FieldPresent => "No PDF file part in the request"
  | FilenameNonEmpty => "No selected file"
  | ExtensionIsPdf => "Invalid file type. Please upload a PDF."
  end.

(** A request without the field has no filename at all, so it fails the two
    filename checks as well. *)
Definition check_fails (request : Request) (c : ValidationCheck) : bool :=
  match getitem (files request) "pdfFile", c with
  | None, _ => true
  | Some f, FieldPresent => false
  | Some f, FilenameNonEmpty => String.eqb (filename f) ""
  | Some f, ExtensionIsPdf => negb (has_pdf_extension (filename f))
  end.

Definition precedence : list ValidationCheck :=
  [FieldPresent; FilenameNonEmpty; ExtensionIsPdf].

Definition first_failing (request : Request) : option ValidationCheck :=
  find (check_fails request) precedence.

(** The calls the handler made to the rasterizer and to the encoder, read off
    a trace. *)
Definition rasterizer_calls (t : list Event) : list (bytes * Z) :=
  flat_map (fun ev => match ev with
                      | EvRasterize b dpi => [(b, dpi)]
                      | _ => []
                      end) t.

Definition encoder_calls (t : list Event) : list (Image * string * Z) :=
  flat_map (fun ev => match ev with
                      | EvEncode img format quality => [(img, format, quality)]
                      | _ => []
                      end) t.

Definition reads (t : list Event) : list FileStorage :=
  flat_map (fun ev => match ev with
                      | EvRead f => [f]
                      | _ => []
                      end) t.

Definition encode_event (img : Image) : Event := EvEncode img "JPEG" 85.

(** What every conversion starts with: the upload is read, then rasterized. *)
Definition prelude (f : FileStorage) : list Event :=
  [EvRead f; EvRasterize (stream f) 150].

(** The members [page_k.jpg], [page_(k+1).jpg], ... holding the given JPEGs. *)
Fixpoint page_entries (compression : Compression) (k : nat)
    (jpegs : list bytes) : list ZipInfo :=
  match jpegs with
  | [] => []
  | data :: rest =>
      {| zi_filename := page_name k; zi_compress_type := compression;
         zi_data := data |} :: page_entries compression (S k) rest
  end.

(** Every page encodes: [jpegs] are the encoder's outputs, page by page. *)
Definition encodes_to (ext : Externals) (images : list Image)
    (jpegs : list bytes) : Prop :=
  Forall2 (fun img data => Image_encode ext img "JPEG" 85 = Returns data)
          images jpegs.

(** An exception [e] raised during rasterization or encoding, together with
    the pages the encoder was given up to that point: either the rasterizer
    raises, or every page before some page encodes and that page does not. *)
Inductive conversion_fails (ext : Externals) (f : FileStorage)
    (e : PyException) : list Image -> Prop :=
| RasterizerFails :
    convert_from_bytes ext (stream f) 150 = Raises e ->
    conversion_fails ext f e []
| EncoderFails pre img post jpegs :
    convert_from_bytes ext (stream f) 150 = Returns (pre ++ img :: post) ->
    encodes_to ext pre jpegs ->
    Image_encode ext img "JPEG" 85 = Raises e ->
    conversion_fails ext f e (pre ++ [img]).

(** The archive the multi-page branch leaves behind, given the pages' JPEGs,
    and the answer of a conversion that went through. *)
Definition pages_archive (jpegs : list bytes) : ZipFile :=
  {| zf_mode := "a"; zf_compression := ZIP_DEFLATED; zf_allowZip64 := false;
     zf_filelist := page_entries ZIP_DEFLATED 1 jpegs |}.

Definition success_response (ext : Externals) (jpegs : list bytes) : Response :=
  match jpegs with
  | [data] => FileResponse data "image/jpeg" true "converted_page_1.jpg"
  | _ => FileResponse (zip_bytes ext (pages_archive jpegs)) "application/zip"
                      true "converted_pages.zip"
  end.



(** The line the [except] clause prints and the body it answers with. *)
Definition log_line (e : PyException) : string :=
  ("Error during PDF conversion: " ++ exc_str e)%string.

Definition error_body (e : PyException) : string :=
  ("An error occurred during conversion: " ++ exc_str e)%string.

(** ** A concrete environment, to run the handler in *)

Module Demo.

Definition page (n : nat) : Image :=
  {| width := n; height := n; pixels := repeat Byte.xff n |}.

(** One page per byte of the upload; an upload starting with 0xff is not a
    PDF. *)
Definition rasterizer (pdf_bytes : bytes) (dpi : Z) : Outcome (list Image) :=
  match pdf_bytes with
  | Byte.xff :: _ =>
      Raises {| exc_type := "PDFPageCountError";
                exc_str := "Unable to get page count." |}
  | _ => Returns (map page (seq 1 (length pdf_bytes)))
  end.

(** Images three pixels wide cannot be written. *)
Definition encoder (img : Image) (format : string) (quality : Z)
  : Outcome bytes :=
  if (width img =? 3)%nat
  then Raises {| exc_type := "OSError"; exc_str := "encoder error" |}
  else Returns (pixels img).

Definition container (zf : ZipFile) : bytes :=
  concat (map zi_data (zf_filelist zf)).

Definition ext : Externals :=
  {| convert_from_bytes := rasterizer;
     Image_encode := encoder;
     zip_bytes := container |}.

Definition file (name : string) (data : bytes) : FileStorage :=
  {| filename := name; stream := data |}.

Definition upload (field name : string) (data : bytes) : Request :=
  {| files := [(field, file name data)] |}.

End Demo.

(** ** Facts about strings *)

Lemma lower_app (s t : string) : lower (s ++ t) = (lower s ++ lower t)%string.
Proof.
  induction s as [|c s IH]; simpl; [reflexivity | now rewrite IH].
Qed.

Lemma lower_length (s : string) : String.length (lower s) = String.length s.
Proof.
  induction s as [|c s IH]; simpl; [reflexivity | now rewrite IH].
Qed.

Lemma string_app_length (s t : string) :
  String.length (s ++ t) = String.length s + String.length t.
Proof.
  induction s as [|c s IH]; simpl; [reflexivity | now rewrite IH].
Qed.

Lemma substring_all (s : string) : substring 0 (String.length s) s = s.
Proof.
  induction s as [|c s IH]; simpl; [reflexivity | now rewrite IH].
Qed.

Lemma substring_skip_app (p s : string) (m : nat) :
  substring (String.length p) m (p ++ s) = substring 0 m s.
Proof.
  induction p as [|c p IH]; simpl; [reflexivity | exact IH].
Qed.

Lemma substring_split (s : string) (k : nat) :
  k <= String.length s ->
  s = (substring 0 k s ++ substring k (String.length s - k) s)%string.
Proof.
  revert k; induction s as [|c s IH]; intros k Hk; simpl in *.
  - destruct k; reflexivity.
  - destruct k as [|k]; simpl.
    + now rewrite substring_all.
    + f_equal. apply IH. lia.
Qed.

(** [endswith] holds exactly when the string is something followed by the
    suffix. *)
Lemma endswith_spec (s suffix : string) :
  endswith s suffix = true <-> exists p, s = (p ++ suffix)%string.
Proof.
  unfold endswith. split.
  - destruct (Nat.leb_spec (String.length suffix) (String.length s)) as [Hle|Hlt];
      [|discriminate].
    intros H. apply String.eqb_eq in H.
    exists (substring 0 (String.length s - String.length suffix) s).
    assert (Hs := substring_split s (String.length s - String.length suffix)
                    ltac:(lia)).
    replace (String.length s - (String.length s - String.length suffix))
      with (String.length suffix) in Hs by lia.
    now rewrite H in Hs.
  - intros [p ->]. rewrite string_app_length.
    replace (String.length suffix <=? String.length p + String.length suffix)%nat
      with true by (symmetry; apply Nat.leb_le; lia).
    replace (String.length p + String.length suffix - String.length suffix)
      with (String.length p) by lia.
    rewrite substring_skip_app, substring_all. apply String.eqb_refl.
Qed.

Lemma endswith_false (s suffix : string) :
  endswith s suffix = false <-> ~ exists p, s = (p ++ suffix)%string.
Proof.
  rewrite <- endswith_spec. destruct (endswith s suffix); split; intros H;
    try discriminate; try reflexivity.
  now elim H.
Qed.

Lemma string_app_inv_tail (p q s t : string) :
  String.length s = String.length t ->
  (p ++ s)%string = (q ++ t)%string -> p = q /\ s = t.
Proof.
  revert q; induction p as [|c p IH]; intros q Hlen H.
  - destruct q as [|d q]; simpl in H; [now split|].
    exfalso. apply (f_equal String.length) in H. simpl in H.
    rewrite string_app_length in H. lia.
  - destruct q as [|d q]; simpl in H.
    + exfalso. apply (f_equal String.length) in H. simpl in H.
      rewrite string_app_length in H. lia.
    + injection H as -> H. destruct (IH q Hlen H) as [-> ->]. now split.
Qed.

Lemma lower_split (s p t : string) :
  lower s = (p ++ t)%string ->
  exists s1 s2, s = (s1 ++ s2)%string /\ lower s1 = p /\ lower s2 = t.
Proof.
  revert p; induction s as [|c s IH]; intros p H.
  - destruct p; simpl in H; [|discriminate].
    exists EmptyString, EmptyString. simpl in *. now repeat split.
  - destruct p as [|d p]; simpl in H.
    + exists EmptyString, (String c s). now repeat split.
    + injection H as Hc H. destruct (IH p H) as (s1 & s2 & -> & H1 & H2).
      exists (String c s1), s2. simpl. rewrite H1, Hc. now repeat split.
Qed.

(** The characters [lower_char] sends to each letter of [".pdf"]. *)
Lemma lower_char_dot (c : ascii) : lower_char c = "."%char <-> c = "."%char.
Proof.
  destruct c as [[] [] [] [] [] [] [] []]; vm_compute; split; intros H;
    first [reflexivity | discriminate H].
Qed.

Lemma lower_char_p (c : ascii) :
  lower_char c = "p"%char <-> c = "p"%char \/ c = "P"%char.
Proof.
  destruct c as [[] [] [] [] [] [] [] []]; vm_compute; split; intros H;
    first [ discriminate H
          | now left | now right
          | destruct H as [H|H]; first [reflexivity | discriminate H] ].
Qed.

Lemma lower_char_d (c : ascii) :
  lower_char c = "d"%char <-> c = "d"%char \/ c = "D"%char.
Proof.
  destruct c as [[] [] [] [] [] [] [] []]; vm_compute; split; intros H;
    first [ discriminate H
          | now left | now right
          | destruct H as [H|H]; first [reflexivity | discriminate H] ].
Qed.

Lemma lower_char_f (c : ascii) :
  lower_char c = "f"%char <-> c = "f"%char \/ c = "F"%char.
Proof.
  destruct c as [[] [] [] [] [] [] [] []]; vm_compute; split; intros H;
    first [ discriminate H
          | now left | now right
          | destruct H as [H|H]; first [reflexivity | discriminate H] ].
Qed.

Lemma list_ascii_of_string_app (s t : string) :
  list_ascii_of_string (s ++ t) = list_ascii_of_string s ++ list_ascii_of_string t.
Proof.
  induction s as [|c s IH]; simpl; [reflexivity | now rewrite IH].
Qed.

Lemma string_of_list_ascii_app (l1 l2 : list ascii) :
  string_of_list_ascii (l1 ++ l2)
  = (string_of_list_ascii l1 ++ string_of_list_ascii l2)%string.
Proof.
  induction l1 as [|c l1 IH]; simpl; [reflexivity | now rewrite IH].
Qed.

Lemma is_letter_spec (small capital c : ascii) :
  is_letter small capital c = true <-> c = small \/ c = capital.
Proof.
  unfold is_letter. rewrite orb_true_iff, !Ascii.eqb_eq. tauto.
Qed.

(** The specification's reading of the extension test, unfolded. *)
Lemma has_pdf_extension_spec (name : string) :
  has_pdf_extension name = true <->
  exists stem c1 c2 c3,
    name = (stem ++ String "." (String c1 (String c2 (String c3 ""))))%string
    /\ (c1 = "p" \/ c1 = "P")%char /\ (c2 = "d" \/ c2 = "D")%char
    /\ (c3 = "f" \/ c3 = "F")%char.
Proof.
  unfold has_pdf_extension. split.
  - destruct (rev (list_ascii_of_string name)) as [|c3 [|c2 [|c1 [|c0 r]]]] eqn:E;
      try discriminate.
    rewrite !andb_true_iff, !is_letter_spec, Ascii.eqb_eq.
    intros [[[-> H1] H2] H3].
    exists (string_of_list_ascii (rev r)), c1, c2, c3. repeat split; auto.
    apply (f_equal (@rev ascii)) in E. rewrite rev_involutive in E. simpl in E.
    rewrite <- !app_assoc in E. simpl in E.
    rewrite <- (string_of_list_ascii_of_string name), E.
    now rewrite string_of_list_ascii_app.
  - intros (stem & c1 & c2 & c3 & -> & H1 & H2 & H3).
    rewrite list_ascii_of_string_app, rev_app_distr.
    cbn [list_ascii_of_string List.rev app].
    rewrite Ascii.eqb_refl, !andb_true_iff, !is_letter_spec. auto.
Qed.

(** The handler's test, [filename.lower().endswith('.pdf')], is the
    specification's case-insensitive extension test. *)
Lemma endswith_lower_pdf (name : string) :
  endswith (lower name) ".pdf" = has_pdf_extension name.
Proof.
  apply eq_true_iff_eq. rewrite endswith_spec, has_pdf_extension_spec. split.
  - intros [p H]. apply lower_split in H. destruct H as (s1 & s2 & -> & _ & H).
    destruct s2 as [|c0 [|c1 [|c2 [|c3 [|c4 s2]]]]]; simpl in H; try discriminate.
    injection H as H0 H1 H2 H3.
    apply (proj1 (lower_char_dot c0)) in H0. subst c0.
    exists s1, c1, c2, c3. repeat split.
    + now apply (proj1 (lower_char_p c1)).
    + now apply (proj1 (lower_char_d c2)).
    + now apply (proj1 (lower_char_f c3)).
  - intros (stem & c1 & c2 & c3 & -> & H1 & H2 & H3).
    exists (lower stem). rewrite lower_app. simpl.
    apply (proj2 (lower_char_p c1)) in H1. apply (proj2 (lower_char_d c2)) in H2.
    apply (proj2 (lower_char_f c3)) in H3.
    rewrite H1, H2, H3. reflexivity.
Qed.

Example extension_accepted :
  map (fun name => endswith (lower name) ".pdf")
      ["report.pdf"; "REPORT.PDF"; "a.b.PdF"; ".pdf"]
  = [true; true; true; true].
Proof. reflexivity. Qed.

Example extension_refused :
  map (fun name => endswith (lower name) ".pdf")
      ["report.pdf.txt"; "pdf"; "report.pdf "; "report,pdf"; ""]
  = [false; false; false; false; false].
Proof. reflexivity. Qed.

Lemma has_pdf_extension_nonempty (name : string) :
  has_pdf_extension name = true -> String.eqb name "" = false.
Proof.
  destruct name; [discriminate | reflexivity].
Qed.

(** Decimal printing is injective, hence so are the member names. *)
Lemma to_uint_nonnil (n : nat) : Nat.to_uint n <> Decimal.Nil.
Proof.
  rewrite <- (DecimalNat.Unsigned.of_to n) at 1.
  rewrite DecimalNat.Unsigned.to_of. unfold Decimal.unorm.
  destruct (Decimal.nzhead (Nat.to_uint n)); discriminate.
Qed.

Lemma str_of_nat_inj (a b : nat) : str_of_nat a = str_of_nat b -> a = b.
Proof.
  unfold str_of_nat. intros H.
  apply (f_equal DecimalString.NilZero.uint_of_string) in H.
  rewrite !DecimalString.NilZero.usu in H by apply to_uint_nonnil.
  injection H as H. now apply DecimalNat.Unsigned.to_uint_inj.
Qed.

Example page_names_1_to_12 :
  map page_name [1; 2; 9; 10; 12]
  = ["page_1.jpg"; "page_2.jpg"; "page_9.jpg"; "page_10.jpg"; "page_12.jpg"].
Proof. reflexivity. Qed.

Lemma page_name_inj (a b : nat) : page_name a = page_name b -> a = b.
Proof.
  unfold page_name. intros H. apply str_of_nat_inj.
  change ("page_" ++ str_of_nat a ++ ".jpg")%string
    with ("page_" ++ (str_of_nat a ++ ".jpg"))%string in H.
  apply (string_app_inv_tail "page_" "page_") in H.
  - destruct H as [_ H].
    now apply (string_app_inv_tail (str_of_nat a) (str_of_nat b) ".jpg" ".jpg") in H.
  - apply (f_equal String.length) in H. simpl in H. now injection H.
Qed.

(** ** Facts about the in-memory buffers *)

Lemma bio_fresh_write_read (data : bytes) :
  bio_read (bio_seek (bio_write BytesIO_new data) 0) = data.
Proof.
  unfold bio_read, bio_seek, bio_write, BytesIO_new; simpl.
  now rewrite skipn_nil, app_nil_r.
Qed.

Lemma bio_fresh_write_getvalue (data : bytes) :
  bio_getvalue (bio_seek (bio_write BytesIO_new data) 0) = data.
Proof.
  unfold bio_getvalue, bio_seek, bio_write, BytesIO_new; simpl.
  now rewrite skipn_nil, app_nil_r.
Qed.

(** ** Facts about the handler's steps *)

Section HandlerFacts.

Variable ext : Externals.

Lemma Image_save_returns img fp format quality data :
  Image_encode ext img format quality = Returns data ->
  Image_save ext img fp format quality
  = ([EvEncode img format quality], Returns (bio_write fp data)).
Proof.
  intros H. unfold Image_save, bind, emit, lift, ret. now rewrite H.
Qed.

Lemma Image_save_raises img fp format quality e :
  Image_encode ext img format quality = Raises e ->
  Image_save ext img fp format quality
  = ([EvEncode img format quality], Raises e).
Proof.
  intros H. unfold Image_save, bind, emit, lift, ret. now rewrite H.
Qed.

Lemma write_pages_cons_returns zf i img rest data :
  Image_encode ext img "JPEG" 85 = Returns data ->
  write_pages ext zf ((i, img) :: rest)
  = (encode_event img
       :: trace (write_pages ext (writestr zf (page_name (S i)) data) rest),
     outcome (write_pages ext (writestr zf (page_name (S i)) data) rest)).
Proof.
  intros H. cbn [write_pages].
  rewrite (Image_save_returns _ _ _ _ _ H). cbn [bind].
  rewrite bio_fresh_write_getvalue, Nat.add_1_r.
  now destruct (write_pages ext _ rest).
Qed.

Lemma write_pages_cons_raises zf i img rest e :
  Image_encode ext img "JPEG" 85 = Raises e ->
  write_pages ext zf ((i, img) :: rest) = ([encode_event img], Raises e).
Proof.
  intros H. cbn [write_pages].
  now rewrite (Image_save_raises _ _ _ _ _ H).
Qed.

(** When every page encodes, the loop encodes each page once, in order, and
    appends one member per page. *)
Lemma write_pages_returns images : forall jpegs zf k,
  encodes_to ext images jpegs ->
  write_pages ext zf (enumerate_from k images)
  = (map encode_event images,
     Returns {| zf_mode := zf_mode zf; zf_compression := zf_compression zf;
                zf_allowZip64 := zf_allowZip64 zf;
                zf_filelist := zf_filelist zf
                  ++ page_entries (zf_compression zf) (S k) jpegs |}).
Proof.
  induction images as [|img images IH]; intros jpegs zf k H; inversion H; subst.
  - simpl. unfold ret. rewrite app_nil_r. now destruct zf.
  - cbn [enumerate_from]. rewrite (write_pages_cons_returns _ _ _ _ _ H2).
    rewrite (IH _ _ _ H4). cbn [trace outcome fst snd map writestr
      zf_mode zf_compression zf_allowZip64 zf_filelist page_entries].
    now rewrite <- app_assoc.
Qed.

(** The first page that fails to encode stops the loop. *)
Lemma write_pages_raises pre : forall jpegs img post e zf k,
  encodes_to ext pre jpegs ->
  Image_encode ext img "JPEG" 85 = Raises e ->
  write_pages ext zf (enumerate_from k (pre ++ img :: post))
  = (map encode_event (pre ++ [img]), Raises e).
Proof.
  induction pre as [|p pre IH]; intros jpegs img post e zf k H He;
    inversion H; subst.
  - simpl app. cbn [enumerate_from]. now rewrite (write_pages_cons_raises _ _ _ _ _ He).
  - simpl app. cbn [enumerate_from]. rewrite (write_pages_cons_returns _ _ _ _ _ H2).
    now rewrite (IH _ _ _ _ _ _ H4 He).
Qed.

(** Whatever the encoder does, the loop only ever calls it on a prefix of the
    pages, and on all of them when it completes. *)
Lemma write_pages_trace images : forall zf k,
  exists n, trace (write_pages ext zf (enumerate_from k images))
            = map encode_event (firstn n images)
         /\ (forall zf', outcome (write_pages ext zf (enumerate_from k images))
                         = Returns zf' -> firstn n images = images).
Proof.
  induction images as [|img images IH]; intros zf k.
  - exists 0. now split.
  - cbn [enumerate_from].
    destruct (Image_encode ext img "JPEG" 85) as [data|e] eqn:E.
    + rewrite (write_pages_cons_returns _ _ _ _ _ E).
      destruct (IH (writestr zf (page_name (S k)) data) (S k)) as (n & Ht & Ho).
      exists (S n). cbn [trace outcome fst snd firstn map]. split.
      * now rewrite <- Ht.
      * intros zf' H. f_equal. now apply (Ho zf').
    + rewrite (write_pages_cons_raises _ _ _ _ _ E).
      exists 1. cbn [trace outcome fst snd firstn map]. split; [reflexivity|].
      discriminate.
Qed.

End HandlerFacts.

(** ** Facts about the expected archive members *)






Lemma encodes_to_length ext images jpegs :
  encodes_to ext images jpegs -> length jpegs = length images.
Proof.
  intros H. symmetry. exact (Forall2_length H).
Qed.

(** ** The handler, path by path *)

Section Paths.

Variable ext : Externals.

Lemma convert_body_rasterizer_raises f e :
  convert_from_bytes ext (stream f) 150 = Raises e ->
  convert_body ext f = (prelude f, Raises e).
Proof.
  intros H. unfold convert_body, FileStorage_read, rasterize, bind, emit, lift, ret.
  simpl. now rewrite H.
Qed.

Lemma convert_body_no_pages f :
  convert_from_bytes ext (stream f) 150 = Returns [] ->
  convert_body ext f
  = (prelude f,
     Returns (TextResponse "Could not convert PDF to images. Ensure PDF is valid." 500)).
Proof.
  intros H. unfold convert_body, FileStorage_read, rasterize, bind, emit, lift, ret.
  simpl. now rewrite H.
Qed.

Lemma convert_body_one_page f img :
  convert_from_bytes ext (stream f) 150 = Returns [img] ->
  convert_body ext f
  = (prelude f ++ [encode_event img],
     match Image_encode ext img "JPEG" 85 with
     | Returns data =>
         Returns (FileResponse data "image/jpeg" true "converted_page_1.jpg")
     | Raises e => Raises e
     end).
Proof.
  intros H. unfold convert_body, FileStorage_read, rasterize.
  unfold bind at 1 2 3 4, emit, lift, ret. simpl. rewrite H. simpl.
  destruct (Image_encode ext img "JPEG" 85) as [data|e] eqn:E.
  - rewrite (Image_save_returns _ _ _ _ _ _ E). simpl.
    unfold send_file. rewrite bio_fresh_write_read. reflexivity.
  - rewrite (Image_save_raises _ _ _ _ _ _ E). reflexivity.
Qed.

Lemma convert_body_many_pages f images :
  convert_from_bytes ext (stream f) 150 = Returns images ->
  1 < length images ->
  convert_body ext f
  = (prelude f
       ++ trace (write_pages ext (ZipFile_open "a" ZIP_DEFLATED false)
                             (enumerate images)),
     match outcome (write_pages ext (ZipFile_open "a" ZIP_DEFLATED false)
                                (enumerate images)) with
     | Returns zf =>
         Returns (FileResponse (zip_bytes ext zf) "application/zip" true
                               "converted_pages.zip")
     | Raises e => Raises e
     end).
Proof.
  intros H Hlen. unfold convert_body, FileStorage_read, rasterize.
  unfold bind at 1 2 3 4, emit, lift, ret. simpl. rewrite H. simpl.
  destruct images as [|img0 [|img1 rest]]; simpl in Hlen; try lia.
  cbn [length Nat.eqb].
  destruct (write_pages ext _ (enumerate (img0 :: img1 :: rest))) as [t [zf|e]];
    simpl; [|reflexivity].
  unfold send_file. rewrite bio_fresh_write_read, app_nil_r. reflexivity.
Qed.

Lemma convert_pdf_valid request f :
  valid_upload request f ->
  convert_pdf ext request = try_except (convert_body ext f) convert_handler.
Proof.
  intros [Hget Hext]. unfold convert_pdf, FileStorage_bool. rewrite Hget.
  rewrite (has_pdf_extension_nonempty _ Hext), endswith_lower_pdf, Hext.
  reflexivity.
Qed.

Lemma try_except_returns {A} (t : list Event) (a : A) handler :
  try_except (t, Returns a) handler = (t, Returns a).
Proof. reflexivity. Qed.

Lemma try_except_convert_handler (t : list Event) e :
  try_except (t, Raises e) convert_handler
  = (t ++ [EvPrint ("Error during PDF conversion: " ++ exc_str e)%string],
     Returns (TextResponse
                ("An error occurred during conversion: " ++ exc_str e)%string 500)).
Proof. reflexivity. Qed.

End Paths.

Ltac split_paths ext f img0 img1 rest e :=
  let E := fresh "Hraster" in
  destruct (convert_from_bytes ext (stream f) 150)
    as [[|img0 [|img1 rest]]|e] eqn:E;
  [ rewrite (convert_body_no_pages ext f E)
  | rewrite (convert_body_one_page ext f _ E)
  | rewrite (convert_body_many_pages ext f _ E) by (simpl; lia)
  | rewrite (convert_body_rasterizer_raises ext f _ E) ].


Lemma encoder_calls_app t1 t2 :
  encoder_calls (t1 ++ t2) = encoder_calls t1 ++ encoder_calls t2.
Proof. apply flat_map_app. Qed.


Lemma encoder_calls_encode pages :
  encoder_calls (map encode_event pages)
  = map (fun img => (img, "JPEG", 85%Z)) pages.
Proof.
  induction pages as [|img pages IH]; simpl; [reflexivity | now rewrite IH].
Qed.

Lemma reads_encode pages : reads (map encode_event pages) = [].
Proof. induction pages; simpl; auto. Qed.

Lemma reads_app t1 t2 : reads (t1 ++ t2) = reads t1 ++ reads t2.
Proof. apply flat_map_app. Qed.

(** The guarded block performs the prelude and then encodes a prefix of the
    pages; when it answers 200 it has encoded all of them.  It never answers
    400. *)
Lemma convert_body_trace ext f :
  exists pages,
    trace (convert_body ext f) = prelude f ++ map encode_event pages
    /\ (forall r, outcome (convert_body ext f) = Returns r ->
          status_code r = 500%Z
          \/ (status_code r = 200%Z
              /\ convert_from_bytes ext (stream f) 150 = Returns pages)).
Proof.
  split_paths ext f img0 img1 rest e.
  - exists []. split; [reflexivity|]. intros r [= <-]. now left.
  - exists [img0]. split; [reflexivity|]. cbn [outcome snd].
    destruct (Image_encode ext img0 "JPEG" 85); intros r [= <-]. now right.
  - destruct (write_pages_trace ext (img0 :: img1 :: rest)
                (ZipFile_open "a" ZIP_DEFLATED false) 0) as (n & Ht & Ho).
    fold (enumerate (img0 :: img1 :: rest)) in Ht, Ho.
    exists (firstn n (img0 :: img1 :: rest)). cbn [trace outcome fst snd].
    split; [now rewrite <- Ht|].
    destruct (outcome (write_pages ext _ (enumerate (img0 :: img1 :: rest))))
      as [zf|e] eqn:E; intros r [= <-].
    right. split; [reflexivity|]. now rewrite (Ho zf eq_refl).
  - exists []. split; [reflexivity|]. intros r [=].
Qed.

(** A validated request is always answered, with 200 or 500. *)
Lemma convert_pdf_valid_answer ext request f :
  valid_upload request f ->
  exists r, outcome (convert_pdf ext request) = Returns r
            /\ (status_code r = 200%Z \/ status_code r = 500%Z).
Proof.
  intros Hv. rewrite (convert_pdf_valid ext _ _ Hv).
  destruct (convert_body_trace ext f) as (pages & _ & Ho).
  destruct (convert_body ext f) as [t [r|e]].
  - exists r. split; [reflexivity|].
    destruct (Ho r eq_refl) as [H|[H _]]; auto.
  - rewrite try_except_convert_handler. eexists. split; [reflexivity|]. now right.
Qed.

(** A request is valid exactly when no validation check fails. *)
Lemma first_failing_None request :
  first_failing request = None <-> exists f, valid_upload request f.
Proof.
  unfold first_failing, valid_upload, check_fails. simpl.
  destruct (getitem (files request) "pdfFile") as [f|].
  - destruct (String.eqb_spec (filename f) "") as [E|E].
    + split; [discriminate|]. intros (f' & [= <-] & H). now rewrite E in H.
    + destruct (has_pdf_extension (filename f)) eqn:Hx; simpl.
      * split; [|reflexivity]. intros _. now exists f.
      * split; [discriminate|]. intros (f' & [= <-] & H). congruence.
  - split; [discriminate|]. now intros (f & [=] & _).
Qed.

(** A validated request reads its upload, once. *)
Lemma convert_pdf_valid_reads ext request f :
  valid_upload request f ->
  reads (trace (convert_pdf ext request)) = [f].
Proof.
  intros Hv. rewrite (convert_pdf_valid ext _ _ Hv).
  destruct (convert_body_trace ext f) as (pages & Hb & _).
  destruct (convert_body ext f) as [t [r|e]]; cbn [trace fst] in Hb; subst t.
  - rewrite try_except_returns. cbn [trace fst].
    rewrite reads_app, reads_encode. reflexivity.
  - rewrite try_except_convert_handler. cbn [trace fst].
    rewrite !reads_app, reads_encode. reflexivity.
Qed.

(** [conversion_fails] covers every way the guarded block can raise. *)
Lemma write_pages_raises_inv ext images : forall zf k e,
  outcome (write_pages ext zf (enumerate_from k images)) = Raises e ->
  exists pre img post jpegs,
    images = pre ++ img :: post
    /\ encodes_to ext pre jpegs
    /\ Image_encode ext img "JPEG" 85 = Raises e.
Proof.
  induction images as [|img images IH]; intros zf k e H.
  - discriminate H.
  - cbn [enumerate_from] in H.
    destruct (Image_encode ext img "JPEG" 85) as [data|e'] eqn:E.
    + rewrite (write_pages_cons_returns _ _ _ _ _ _ E) in H. cbn [outcome snd] in H.
      destruct (IH _ _ _ H) as (pre & img' & post & jpegs & -> & Hpre & He).
      exists (img :: pre), img', post, (data :: jpegs).
      split; [reflexivity|]. split; [now constructor | exact He].
    + rewrite (write_pages_cons_raises _ _ _ _ _ _ E) in H. injection H as ->.
      exists [], img, images, []. split; [reflexivity|]. split; [constructor | exact E].
Qed.

Lemma convert_body_raises_inv ext f e :
  outcome (convert_body ext f) = Raises e ->
  exists attempted, conversion_fails ext f e attempted.
Proof.
  split_paths ext f img0 img1 rest e'; cbn [outcome snd]; intros H.
  - discriminate H.
  - destruct (Image_encode ext img0 "JPEG" 85) as [data|e''] eqn:E; [discriminate H|].
    injection H as ->. exists ([] ++ [img0]).
    apply (EncoderFails ext f e [] img0 [] []); [exact Hraster | constructor | exact E].
  - destruct (outcome (write_pages ext _ (enumerate (img0 :: img1 :: rest))))
      as [zf|e''] eqn:E; [discriminate H|].
    injection H as ->.
    destruct (write_pages_raises_inv ext _ _ _ _ E)
      as (pre & img & post & jpegs & Heq & Hpre & He).
    exists (pre ++ [img]).
    apply (EncoderFails ext f e pre img post jpegs); [now rewrite <- Heq | exact Hpre | exact He].
  - injection H as ->. exists []. now constructor.
Qed.

(** * The claims *)



(** C2.  A valid upload that rasterizes to exactly one page is answered by
    encoding that page once, as JPEG with quality 85, and returning the
    encoded bytes with status 200, MIME type image/jpeg and attachment name
    converted_page_1.jpg. *)
Theorem convert_pdf_single_page ext request f img data :
  valid_upload request f ->
  convert_from_bytes ext (stream f) 150 = Returns [img] ->
  Image_encode ext img "JPEG" 85 = Returns data ->
  convert_pdf ext request
  = ([EvRead f; EvRasterize (stream f) 150; EvEncode img "JPEG" 85],
     Returns (FileResponse data "image/jpeg" true "converted_page_1.jpg"))
  /\ status_code (FileResponse data "image/jpeg" true "converted_page_1.jpg")
     = 200%Z.
Proof.
  intros Hv Hr He. split; [|reflexivity].
  rewrite (convert_pdf_valid ext _ _ Hv).
  rewrite (convert_body_one_page ext f img Hr), He.
  reflexivity.
Qed.

Lemma convert_pdf_single_page_witness :
  convert_pdf Demo.ext (Demo.upload "pdfFile" "one.pdf" [Byte.x00])
  = ([EvRead (Demo.file "one.pdf" [Byte.x00]); EvRasterize [Byte.x00] 150;
      EvEncode (Demo.page 1) "JPEG" 85],
     Returns (FileResponse [Byte.xff] "image/jpeg" true "converted_page_1.jpg"))
  /\ status_code (FileResponse [Byte.xff] "image/jpeg" true
                               "converted_page_1.jpg") = 200%Z.
Proof.
  apply (convert_pdf_single_page Demo.ext
           (Demo.upload "pdfFile" "one.pdf" [Byte.x00])
           (Demo.file "one.pdf" [Byte.x00]) (Demo.page 1) [Byte.xff]).
  - split; reflexivity.
  - reflexivity.
  - reflexivity.
Defined.

(** C3.  When the [pdfFile] field is present with a non-empty filename:
    if the filename does not end, case-insensitively, in .pdf, the answer is
    status 400 with body "Invalid file type. Please upload a PDF." and
    nothing else happens; if it does, the request passes the check: the
    upload is read and the answer is not a 400. *)
Theorem convert_pdf_extension_check ext request f :
  getitem (files request) "pdfFile" = Some f ->
  filename f <> "" ->
  if has_pdf_extension (filename f)
  then reads (trace (convert_pdf ext request)) = [f]
       /\ exists r, outcome (convert_pdf ext request) = Returns r
                    /\ status_code r <> 400%Z
  else convert_pdf ext request
       = ([], Returns (TextResponse "Invalid file type. Please upload a PDF." 400)).
Proof.
  intros Hget Hne. destruct (has_pdf_extension (filename f)) eqn:Hx.
  - assert (Hv : valid_upload request f) by now split.
    split; [exact (convert_pdf_valid_reads ext _ _ Hv)|].
    destruct (convert_pdf_valid_answer ext _ _ Hv) as (r & Ho & Hs).
    exists r. split; [exact Ho|]. destruct Hs as [Hs|Hs]; rewrite Hs; discriminate.
  - unfold convert_pdf. rewrite Hget.
    apply String.eqb_neq in Hne. rewrite Hne.
    now rewrite endswith_lower_pdf, Hx, andb_false_r.
Qed.

Lemma convert_pdf_extension_check_witness :
  convert_pdf Demo.ext (Demo.upload "pdfFile" "notes.pdf.txt" [Byte.x00])
  = ([], Returns (TextResponse "Invalid file type. Please upload a PDF." 400)).
Proof.
  apply (convert_pdf_extension_check Demo.ext
           (Demo.upload "pdfFile" "notes.pdf.txt" [Byte.x00])
           (Demo.file "notes.pdf.txt" [Byte.x00])).
  - reflexivity.
  - discriminate.
Defined.

(** C4.  A valid upload for which the rasterizer returns no page image is
    answered with status 500 and the body "Could not convert PDF to images.
    Ensure PDF is valid."; nothing is encoded or logged. *)
Theorem convert_pdf_no_pages ext request f :
  valid_upload request f ->
  convert_from_bytes ext (stream f) 150 = Returns [] ->
  convert_pdf ext request
  = ([EvRead f; EvRasterize (stream f) 150],
     Returns (TextResponse
                "Could not convert PDF to images. Ensure PDF is valid." 500)).
Proof.
  intros Hv Hr.
  rewrite (convert_pdf_valid ext _ _ Hv), (convert_body_no_pages ext f Hr).
  reflexivity.
Qed.

Lemma convert_pdf_no_pages_witness :
  convert_pdf Demo.ext (Demo.upload "pdfFile" "empty.pdf" [])
  = ([EvRead (Demo.file "empty.pdf" []); EvRasterize [] 150],
     Returns (TextResponse
                "Could not convert PDF to images. Ensure PDF is valid." 500)).
Proof.
  apply (convert_pdf_no_pages Demo.ext (Demo.upload "pdfFile" "empty.pdf" [])
           (Demo.file "empty.pdf" [])).
  - split; reflexivity.
  - reflexivity.
Defined.



(** C6.  A request whose form has no [pdfFile] field is answered with
    status 400 and body "No PDF file part in the request". *)
Theorem convert_pdf_missing_field ext request :
  getitem (files request) "pdfFile" = None ->
  convert_pdf ext request
  = ([], Returns (TextResponse "No PDF file part in the request" 400)).
Proof.
  intros H. unfold convert_pdf. now rewrite H.
Qed.

Lemma convert_pdf_missing_field_witness :
  convert_pdf Demo.ext (Demo.upload "attachment" "a.pdf" [Byte.x00])
  = ([], Returns (TextResponse "No PDF file part in the request" 400)).
Proof.
  apply (convert_pdf_missing_field Demo.ext
           (Demo.upload "attachment" "a.pdf" [Byte.x00])).
  reflexivity.
Defined.

(** C7.  A request whose [pdfFile] field is present with the empty string as
    filename is answered with status 400 and body "No selected file". *)
Theorem convert_pdf_empty_filename ext request f :
  getitem (files request) "pdfFile" = Some f ->
  filename f = "" ->
  convert_pdf ext request = ([], Returns (TextResponse "No selected file" 400)).
Proof.
  intros H Hn. unfold convert_pdf. now rewrite H, Hn.
Qed.

Lemma convert_pdf_empty_filename_witness :
  convert_pdf Demo.ext (Demo.upload "pdfFile" "" [Byte.x00])
  = ([], Returns (TextResponse "No selected file" 400)).
Proof.
  apply (convert_pdf_empty_filename Demo.ext
           (Demo.upload "pdfFile" "" [Byte.x00]) (Demo.file "" [Byte.x00])).
  - reflexivity.
  - reflexivity.
Defined.



(** The answer to a request, by the first validation check it fails. *)
Lemma convert_pdf_first_failing ext request :
  match first_failing request with
  | Some c =>
      convert_pdf ext request = ([], Returns (TextResponse (check_message c) 400))
  | None =>
      exists r, outcome (convert_pdf ext request) = Returns r
                /\ status_code r <> 400%Z
  end.
Proof.
  destruct (first_failing request) as [c|] eqn:E.
  - unfold first_failing, check_fails, convert_pdf, FileStorage_bool in *.
    simpl in E.
    destruct (getitem (files request) "pdfFile") as [f|].
    + destruct (String.eqb (filename f) "").
      * now injection E as <-.
      * rewrite endswith_lower_pdf.
        destruct (has_pdf_extension (filename f)); simpl in *;
          [discriminate | now injection E as <-].
    + now injection E as <-.
  - apply first_failing_None in E. destruct E as [f Hv].
    destruct (convert_pdf_valid_answer ext _ _ Hv) as (r & Ho & Hs).
    exists r. split; [exact Ho|]. destruct Hs as [Hs|Hs]; rewrite Hs; discriminate.
Qed.

(** C9.  The validation checks are decided in a fixed order: missing field,
    then empty filename, then extension.  Whenever some check fails, the
    answer is status 400 with the message of the first check that fails in
    that order, and nothing else happens; in particular a request without
    the field gets "No PDF file part in the request" whatever else is wrong.
    When no check fails the answer is not a 400. *)
Theorem validation_precedence ext request :
  match first_failing request with
  | Some c =>
      convert_pdf ext request = ([], Returns (TextResponse (check_message c) 400))
  | None =>
      exists r, outcome (convert_pdf ext request) = Returns r
                /\ status_code r <> 400%Z
  end
  /\ (check_fails request FieldPresent = true ->
      convert_pdf ext request
      = ([], Returns (TextResponse "No PDF file part in the request" 400))).
Proof.
  split; [apply convert_pdf_first_failing|].
  unfold check_fails, convert_pdf.
  destruct (getitem (files request) "pdfFile"); [discriminate | reflexivity].
Qed.

Lemma validation_precedence_witness :
  check_fails (Demo.upload "pdfFile" "" []) FilenameNonEmpty = true
  /\ check_fails (Demo.upload "pdfFile" "" []) ExtensionIsPdf = true
  /\ convert_pdf Demo.ext (Demo.upload "pdfFile" "" [])
     = ([], Returns (TextResponse "No selected file" 400)).
Proof.
  split; [reflexivity|]. split; [reflexivity|].
  exact (proj1 (validation_precedence Demo.ext (Demo.upload "pdfFile" "" []))).
Defined.

(** C10.  A request answered with status 400 has an empty trace: the upload
    was not read, the rasterizer and the encoder were not called.  Conversely
    any reading, rasterizing or encoding happens only for a request that
    passes all three validation checks. *)
Theorem rejected_request_has_no_effect ext request :
  (forall r, outcome (convert_pdf ext request) = Returns r ->
             status_code r = 400%Z ->
             trace (convert_pdf ext request) = []
             /\ reads (trace (convert_pdf ext request)) = []
             /\ rasterizer_calls (trace (convert_pdf ext request)) = []
             /\ encoder_calls (trace (convert_pdf ext request)) = [])
  /\ (trace (convert_pdf ext request) <> [] ->
      first_failing request = None
      /\ exists f, valid_upload request f
                   /\ reads (trace (convert_pdf ext request)) = [f]).
Proof.
  assert (H := convert_pdf_first_failing ext request).
  split.
  - intros r Ho Hs.
    destruct (first_failing request) as [c|].
    + rewrite H. cbn. repeat split; auto.
    + destruct H as (r' & Ho' & Hs'). rewrite Ho in Ho'. injection Ho' as <-.
      now elim Hs'.
  - intros Ht.
    destruct (first_failing request) as [c|] eqn:E.
    + rewrite H in Ht. now elim Ht.
    + split; [reflexivity|].
      apply first_failing_None in E. destruct E as [f Hv].
      exists f. split; [exact Hv | exact (convert_pdf_valid_reads ext _ _ Hv)].
Qed.

Lemma rejected_request_has_no_effect_witness :
  (trace (convert_pdf Demo.ext (Demo.upload "pdfFile" "photo.jpg" [Byte.x00])) = []
   /\ reads (trace (convert_pdf Demo.ext
                      (Demo.upload "pdfFile" "photo.jpg" [Byte.x00]))) = []
   /\ rasterizer_calls
        (trace (convert_pdf Demo.ext
                  (Demo.upload "pdfFile" "photo.jpg" [Byte.x00]))) = []
   /\ encoder_calls
        (trace (convert_pdf Demo.ext
                  (Demo.upload "pdfFile" "photo.jpg" [Byte.x00]))) = [])
  /\ (first_failing (Demo.upload "pdfFile" "photo.PDF" [Byte.x00]) = None
      /\ exists f, valid_upload (Demo.upload "pdfFile" "photo.PDF" [Byte.x00]) f
                   /\ reads (trace (convert_pdf Demo.ext
                                      (Demo.upload "pdfFile" "photo.PDF"
                                                   [Byte.x00]))) = [f]).
Proof.
  split.
  - apply (proj1 (rejected_request_has_no_effect Demo.ext
                    (Demo.upload "pdfFile" "photo.jpg" [Byte.x00]))
             (TextResponse "Invalid file type. Please upload a PDF." 400)).
    + reflexivity.
    + reflexivity.
  - apply (proj2 (rejected_request_has_no_effect Demo.ext
                    (Demo.upload "pdfFile" "photo.PDF" [Byte.x00]))).
    discriminate.
Defined.

(** * Further properties of the handler *)

(** ** Every run of a validated request *)

(** Either every page encodes, or there is a first page that does not. *)
Lemma encode_all_or_first_failure ext images :
  (exists jpegs, encodes_to ext images jpegs)
  \/ (exists pre img post jpegs e,
        images = pre ++ img :: post
        /\ encodes_to ext pre jpegs
        /\ Image_encode ext img "JPEG" 85 = Raises e).
Proof.
  induction images as [|img images IH].
  - left. exists []. constructor.
  - destruct (Image_encode ext img "JPEG" 85) as [data|e] eqn:E.
    + destruct IH as [[jpegs H] | (pre & img' & post & jpegs & e & -> & Hpre & He)].
      * left. exists (data :: jpegs). now constructor.
      * right. exists (img :: pre), img', post, (data :: jpegs), e.
        split; [reflexivity|]. split; [now constructor | exact He].
    + right. exists [], img, images, [], e.
      split; [reflexivity|]. split; [constructor | exact E].
Qed.

Lemma convert_pdf_success_run ext request f images jpegs :
  valid_upload request f ->
  convert_from_bytes ext (stream f) 150 = Returns images ->
  images <> [] ->
  encodes_to ext images jpegs ->
  convert_pdf ext request
  = (prelude f ++ map encode_event images, Returns (success_response ext jpegs)).
Proof.
  intros Hv Hr Hne Henc. rewrite (convert_pdf_valid ext _ _ Hv).
  destruct images as [|img0 [|img1 rest]]; [now elim Hne | |].
  - inversion Henc as [|? data ? js He Hrest]; subst. inversion Hrest; subst.
    rewrite (convert_body_one_page ext f img0 Hr), He. reflexivity.
  - rewrite (convert_body_many_pages ext f _ Hr) by (simpl; lia).
    unfold enumerate. rewrite (write_pages_returns ext _ jpegs _ 0 Henc).
    cbn [trace outcome fst snd]. rewrite try_except_returns.
    inversion Henc as [|? d0 ? js0 _ Hrest]; subst.
    inversion Hrest as [|? d1 ? js1 _ _]; subst. reflexivity.
Qed.

Lemma convert_pdf_failure_run ext request f e attempted :
  valid_upload request f ->
  conversion_fails ext f e attempted ->
  convert_pdf ext request
  = (prelude f ++ map encode_event attempted ++ [EvPrint (log_line e)],
     Returns (TextResponse (error_body e) 500)).
Proof.
  intros Hv Hf. rewrite (convert_pdf_valid ext _ _ Hv).
  destruct Hf as [Hr | pre img post jpegs Hr Hpre He].
  - rewrite (convert_body_rasterizer_raises ext f e Hr).
    now rewrite try_except_convert_handler.
  - destruct pre as [|p pre].
    + destruct post as [|q post]; simpl app in *.
      * rewrite (convert_body_one_page ext f img Hr), He.
        now rewrite try_except_convert_handler.
      * rewrite (convert_body_many_pages ext f _ Hr) by (simpl; lia).
        unfold enumerate.
        rewrite (write_pages_raises ext [] jpegs img (q :: post) e _ 0 Hpre He).
        cbn [trace outcome fst snd]. rewrite try_except_convert_handler.
        unfold log_line, error_body. now rewrite <- app_assoc.
    + assert (Hlen : 1 < length ((p :: pre) ++ img :: post)).
      { simpl. rewrite length_app. simpl. lia. }
      rewrite (convert_body_many_pages ext f _ Hr Hlen).
      unfold enumerate.
      rewrite (write_pages_raises ext _ jpegs img post e _ 0 Hpre He).
      cbn [trace outcome fst snd]. rewrite try_except_convert_handler.
      unfold log_line, error_body. now rewrite <- app_assoc.
Qed.

Lemma convert_pdf_zero_run ext request f :
  valid_upload request f ->
  convert_from_bytes ext (stream f) 150 = Returns [] ->
  convert_pdf ext request
  = (prelude f,
     Returns (TextResponse
                "Could not convert PDF to images. Ensure PDF is valid." 500)).
Proof.
  intros Hv Hr.
  now rewrite (convert_pdf_valid ext _ _ Hv), (convert_body_no_pages ext f Hr).
Qed.

(** The three ways a validated request can go. *)
Lemma convert_pdf_valid_cases ext request f :
  valid_upload request f ->
  (exists e attempted,
      conversion_fails ext f e attempted
      /\ convert_pdf ext request
         = (prelude f ++ map encode_event attempted ++ [EvPrint (log_line e)],
            Returns (TextResponse (error_body e) 500)))
  \/ (convert_from_bytes ext (stream f) 150 = Returns []
      /\ convert_pdf ext request
         = (prelude f,
            Returns (TextResponse
                       "Could not convert PDF to images. Ensure PDF is valid."
                       500)))
  \/ (exists images jpegs,
        convert_from_bytes ext (stream f) 150 = Returns images
        /\ images <> []
        /\ encodes_to ext images jpegs
        /\ convert_pdf ext request
           = (prelude f ++ map encode_event images,
              Returns (success_response ext jpegs))).
Proof.
  intros Hv.
  destruct (convert_from_bytes ext (stream f) 150) as [images|e] eqn:Hr.
  - destruct images as [|img0 rest].
    + right. left. split; [reflexivity|]. now apply convert_pdf_zero_run.
    + destruct (encode_all_or_first_failure ext (img0 :: rest))
        as [[jpegs H] | (pre & img & post & jpegs & e & Heq & Hpre & He)].
      * right. right. exists (img0 :: rest), jpegs.
        split; [reflexivity|]. split; [discriminate|]. split; [exact H|].
        now apply convert_pdf_success_run.
      * left. exists e, (pre ++ [img]).
        assert (Hf : conversion_fails ext f e (pre ++ [img])).
        { apply (EncoderFails ext f e pre img post jpegs); auto.
          now rewrite Hr, Heq. }
        split; [exact Hf|]. now apply convert_pdf_failure_run.
  - left. exists e, [].
    assert (Hf : conversion_fails ext f e []) by now constructor.
    split; [exact Hf|]. now apply (convert_pdf_failure_run ext request f e []).
Qed.




(** ** What a request can be answered with *)




(** X3.  A file is only ever sent as an attachment, and only in two shapes:
    the JPEG of the single page the rasterizer returned, as image/jpeg named
    converted_page_1.jpg, or the archive of the two or more pages it
    returned, as application/zip named converted_pages.zip.  A one-page
    document is never zipped and a longer one is never sent as a bare
    JPEG. *)
Theorem file_response_origin ext request body mimetype as_attachment
    download_name :
  outcome (convert_pdf ext request)
  = Returns (FileResponse body mimetype as_attachment download_name) ->
  as_attachment = true
  /\ exists f images jpegs,
       valid_upload request f
       /\ convert_from_bytes ext (stream f) 150 = Returns images
       /\ encodes_to ext images jpegs
       /\ ((length images = 1 /\ jpegs = [body]
            /\ mimetype = "image/jpeg"
            /\ download_name = "converted_page_1.jpg")
           \/ (1 < length images
               /\ body = zip_bytes ext (pages_archive jpegs)
               /\ mimetype = "application/zip"
               /\ download_name = "converted_pages.zip")).
Proof.
  intros Ho.
  assert (H := convert_pdf_first_failing ext request).
  destruct (first_failing request) as [c|] eqn:E.
  - rewrite H in Ho. discriminate Ho.
  - apply first_failing_None in E. destruct E as [f Hv].
    destruct (convert_pdf_valid_cases ext _ _ Hv)
      as [(e & att & _ & Hrun) | [[_ Hrun] | (images & jpegs & Hr & Hne & Henc & Hrun)]];
      rewrite Hrun in Ho; cbn [outcome snd] in Ho; try discriminate Ho.
    assert (Hlen := encodes_to_length ext images jpegs Henc).
    destruct jpegs as [|d [|d' js]]; cbn [success_response] in Ho;
      injection Ho as <- <- <- <-.
    + destruct images; [now elim Hne | discriminate Hlen].
    + split; [reflexivity|]. exists f, images, [d].
      repeat (split; [assumption|]). left. simpl in Hlen. auto.
    + split; [reflexivity|]. exists f, images, (d :: d' :: js).
      repeat (split; [assumption|]). right. simpl in Hlen.
      split; [lia|]. auto.
Qed.

Lemma file_response_origin_witness :
  true = true
  /\ exists f images jpegs,
       valid_upload (Demo.upload "pdfFile" "one.pdf" [Byte.x00]) f
       /\ convert_from_bytes Demo.ext (stream f) 150 = Returns images
       /\ encodes_to Demo.ext images jpegs
       /\ ((length images = 1 /\ jpegs = [[Byte.xff]]
            /\ "image/jpeg" = "image/jpeg"
            /\ "converted_page_1.jpg" = "converted_page_1.jpg")
           \/ (1 < length images
               /\ [Byte.xff] = zip_bytes Demo.ext (pages_archive jpegs)
               /\ "image/jpeg" = "application/zip"
               /\ "converted_page_1.jpg" = "converted_pages.zip")).
Proof.
  apply (file_response_origin Demo.ext
           (Demo.upload "pdfFile" "one.pdf" [Byte.x00])
           [Byte.xff] "image/jpeg" true "converted_page_1.jpg").
  reflexivity.
Defined.





(** ** What reaches the collaborators *)

Lemma encoder_calls_run f pages tail :
  encoder_calls tail = [] ->
  encoder_calls (prelude f ++ map encode_event pages ++ tail)
  = map (fun img => (img, "JPEG", 85%Z)) pages.
Proof.
  intros Ht. rewrite !encoder_calls_app, encoder_calls_encode, Ht.
  simpl. now rewrite app_nil_r.
Qed.

Lemma firstn_through pre (img : Image) post :
  firstn (S (length pre)) (pre ++ img :: post) = pre ++ [img].
Proof.
  induction pre as [|p pre IH]; [reflexivity|].
  cbn [length app firstn]. f_equal. exact IH.
Qed.

(** X6.  For a validated upload the encoder is only ever given pages the
    rasterizer returned, in page order, without gaps or repetition: the
    encoder calls are the first n pages for some n, each as JPEG with
    quality 85.  When the rasterizer raises, the encoder is not called. *)
Theorem encoder_sees_prefix_of_pages ext request f :
  valid_upload request f ->
  match convert_from_bytes ext (stream f) 150 with
  | Returns images =>
      exists n, encoder_calls (trace (convert_pdf ext request))
                = map (fun img => (img, "JPEG", 85%Z)) (firstn n images)
  | Raises _ => encoder_calls (trace (convert_pdf ext request)) = []
  end.
Proof.
  intros Hv.
  destruct (convert_pdf_valid_cases ext _ _ Hv)
    as [(e & att & Hf & Hrun) | [[Hr Hrun] | (images & jpegs & Hr & _ & _ & Hrun)]];
    rewrite Hrun; cbn [trace fst].
  - destruct Hf as [Hr | pre img post jpegs Hr Hpre He]; rewrite Hr.
    + reflexivity.
    + exists (S (length pre)).
      rewrite firstn_through. now apply encoder_calls_run.
  - rewrite Hr. now exists 0.
  - rewrite Hr. exists (length images). rewrite firstn_all.
    rewrite <- (app_nil_r (map encode_event images)).
    now apply encoder_calls_run.
Qed.

Lemma encoder_sees_prefix_of_pages_witness :
  exists n,
    encoder_calls
      (trace (convert_pdf Demo.ext
                (Demo.upload "pdfFile" "four.pdf"
                             [Byte.x00; Byte.x01; Byte.x02; Byte.x03])))
    = map (fun img => (img, "JPEG", 85%Z))
          (firstn n [Demo.page 1; Demo.page 2; Demo.page 3; Demo.page 4]).
Proof.
  apply (encoder_sees_prefix_of_pages Demo.ext
           (Demo.upload "pdfFile" "four.pdf"
                        [Byte.x00; Byte.x01; Byte.x02; Byte.x03])
           (Demo.file "four.pdf" [Byte.x00; Byte.x01; Byte.x02; Byte.x03])).
  split; reflexivity.
Defined.

(** ** What the answer does not depend on *)

Lemma getitem_first before key v after :
  Forall (fun kv => fst kv <> key) before ->
  getitem (before ++ (key, v) :: after) key = Some v.
Proof.
  induction 1 as [|[k w] before Hk _ IH]; simpl.
  - now rewrite String.eqb_refl.
  - simpl in Hk. apply String.eqb_neq in Hk. now rewrite Hk.
Qed.

(** X7.  Only the first file stored under [pdfFile] counts: the other form
    fields, before or after it, and any further file under the same name
    change neither the answer nor what the handler does. *)
Theorem other_fields_ignored ext before f after :
  Forall (fun kv => fst kv <> "pdfFile") before ->
  convert_pdf ext {| files := before ++ ("pdfFile", f) :: after |}
  = convert_pdf ext {| files := [("pdfFile", f)] |}.
Proof.
  intros H. unfold convert_pdf. cbn [files].
  rewrite (getitem_first before "pdfFile" f after H).
  reflexivity.
Qed.

Lemma other_fields_ignored_witness :
  convert_pdf Demo.ext
    {| files := [("note", Demo.file "note.txt" [Byte.x07])]
                ++ ("pdfFile", Demo.file "a.pdf" [Byte.x00])
                   :: [("pdfFile", Demo.file "b.txt" [])] |}
  = convert_pdf Demo.ext
      {| files := [("pdfFile", Demo.file "a.pdf" [Byte.x00])] |}.
Proof.
  apply (other_fields_ignored Demo.ext
           [("note", Demo.file "note.txt" [Byte.x07])]
           (Demo.file "a.pdf" [Byte.x00])
           [("pdfFile", Demo.file "b.txt" [])]).
  repeat constructor. discriminate.
Defined.

Lemma conversion_fails_stream ext f f' e attempted :
  stream f = stream f' ->
  conversion_fails ext f e attempted -> conversion_fails ext f' e attempted.
Proof.
  intros Hs [Hr | pre img post jpegs Hr Hpre He]; rewrite Hs in Hr.
  - now apply RasterizerFails.
  - now apply (EncoderFails ext f' e pre img post jpegs).
Qed.

(** Two validated uploads of the same bytes run alike, up to the file named
    in the read event. *)
Lemma same_stream_same_run ext r1 r2 f1 f2 :
  valid_upload r1 f1 -> valid_upload r2 f2 -> stream f1 = stream f2 ->
  exists t o, convert_pdf ext r1 = (EvRead f1 :: t, o)
              /\ convert_pdf ext r2 = (EvRead f2 :: t, o).
Proof.
  intros Hv1 Hv2 Hs.
  destruct (convert_pdf_valid_cases ext _ _ Hv1)
    as [(e & att & Hf & Hrun) | [[Hr Hrun] | (images & jpegs & Hr & Hne & Henc & Hrun)]];
    rewrite Hrun.
  - rewrite (convert_pdf_failure_run ext _ _ _ _ Hv2
               (conversion_fails_stream ext _ _ _ _ Hs Hf)).
    unfold prelude. rewrite <- Hs. cbn [app]. eauto.
  - rewrite Hs in Hr. rewrite (convert_pdf_zero_run ext _ _ Hv2 Hr).
    unfold prelude. rewrite <- Hs. eauto.
  - rewrite Hs in Hr. rewrite (convert_pdf_success_run ext _ _ _ _ Hv2 Hr Hne Henc).
    unfold prelude. rewrite <- Hs. cbn [app]. eauto.
Qed.

(** X8.  Beyond the extension test the declared filename plays no part: two
    validated uploads of the same bytes get the same answer, and the same
    calls are made to the rasterizer and the encoder. *)
Theorem filename_stem_ignored ext r1 r2 f1 f2 :
  valid_upload r1 f1 -> valid_upload r2 f2 -> stream f1 = stream f2 ->
  outcome (convert_pdf ext r1) = outcome (convert_pdf ext r2)
  /\ rasterizer_calls (trace (convert_pdf ext r1))
     = rasterizer_calls (trace (convert_pdf ext r2))
  /\ encoder_calls (trace (convert_pdf ext r1))
     = encoder_calls (trace (convert_pdf ext r2)).
Proof.
  intros Hv1 Hv2 Hs.
  destruct (same_stream_same_run ext _ _ _ _ Hv1 Hv2 Hs) as (t & o & -> & ->).
  repeat split.
Qed.

Lemma filename_stem_ignored_witness :
  outcome (convert_pdf Demo.ext (Demo.upload "pdfFile" "a.pdf" [Byte.x00; Byte.x01]))
  = outcome (convert_pdf Demo.ext
               (Demo.upload "pdfFile" "../etc/b.PDF" [Byte.x00; Byte.x01]))
  /\ rasterizer_calls
       (trace (convert_pdf Demo.ext
                 (Demo.upload "pdfFile" "a.pdf" [Byte.x00; Byte.x01])))
     = rasterizer_calls
         (trace (convert_pdf Demo.ext
                   (Demo.upload "pdfFile" "../etc/b.PDF" [Byte.x00; Byte.x01])))
  /\ encoder_calls
       (trace (convert_pdf Demo.ext
                 (Demo.upload "pdfFile" "a.pdf" [Byte.x00; Byte.x01])))
     = encoder_calls
         (trace (convert_pdf Demo.ext
                   (Demo.upload "pdfFile" "../etc/b.PDF" [Byte.x00; Byte.x01]))).
Proof.
  apply (filename_stem_ignored Demo.ext
           (Demo.upload "pdfFile" "a.pdf" [Byte.x00; Byte.x01])
           (Demo.upload "pdfFile" "../etc/b.PDF" [Byte.x00; Byte.x01])
           (Demo.file "a.pdf" [Byte.x00; Byte.x01])
           (Demo.file "../etc/b.PDF" [Byte.x00; Byte.x01])).
  - split; reflexivity.
  - split; reflexivity.
  - reflexivity.
Defined.

Lemma lower_char_idem (c : ascii) : lower_char (lower_char c) = lower_char c.
Proof.
  destruct c as [[] [] [] [] [] [] [] []]; vm_compute; reflexivity.
Qed.

Lemma lower_idem (s : string) : lower (lower s) = lower s.
Proof.
  induction s as [|c s IH]; simpl; [reflexivity|].
  now rewrite lower_char_idem, IH.
Qed.

Lemma has_pdf_extension_lower (name : string) :
  has_pdf_extension (lower name) = has_pdf_extension name.
Proof.
  now rewrite <- !endswith_lower_pdf, lower_idem.
Qed.

(** X9.  The case of the letters in the filename never matters: an upload
    and the same upload under its lower-cased filename get the same answer,
    whether that is a rejection, an error or a conversion. *)
Theorem filename_case_ignored ext r1 r2 f1 f2 :
  getitem (files r1) "pdfFile" = Some f1 ->
  getitem (files r2) "pdfFile" = Some f2 ->
  filename f2 = lower (filename f1) ->
  stream f1 = stream f2 ->
  outcome (convert_pdf ext r1) = outcome (convert_pdf ext r2).
Proof.
  intros H1 H2 Hn Hs.
  destruct (has_pdf_extension (filename f1)) eqn:Hx.
  - assert (Hv1 : valid_upload r1 f1) by now split.
    assert (Hv2 : valid_upload r2 f2).
    { split; [exact H2|]. now rewrite Hn, has_pdf_extension_lower. }
    destruct (same_stream_same_run ext _ _ _ _ Hv1 Hv2 Hs) as (t & o & -> & ->).
    reflexivity.
  - assert (Hx2 : has_pdf_extension (filename f2) = false)
      by now rewrite Hn, has_pdf_extension_lower.
    unfold convert_pdf. rewrite H1, H2, !endswith_lower_pdf, Hx, Hx2, !andb_false_r.
    rewrite Hn. destruct (filename f1); reflexivity.
Qed.

Lemma filename_case_ignored_witness :
  outcome (convert_pdf Demo.ext (Demo.upload "pdfFile" "Scan.PDF" [Byte.x00]))
  = outcome (convert_pdf Demo.ext (Demo.upload "pdfFile" "scan.pdf" [Byte.x00])).
Proof.
  apply (filename_case_ignored Demo.ext
           (Demo.upload "pdfFile" "Scan.PDF" [Byte.x00])
           (Demo.upload "pdfFile" "scan.pdf" [Byte.x00])
           (Demo.file "Scan.PDF" [Byte.x00])
           (Demo.file "scan.pdf" [Byte.x00])).
  - reflexivity.
  - reflexivity.
  - reflexivity.
  - reflexivity.
Defined.

(** ** The archive *)

(** X10.  Different page numbers give different member names, so no page of
    an archive is shadowed by another. *)
Theorem page_names_distinct (a b : nat) :
  a <> b -> page_name a <> page_name b.
Proof.
  intros Hab H. apply Hab. now apply page_name_inj.
Qed.

Lemma page_names_distinct_witness : page_name 1 <> page_name 11.
Proof.
  apply (page_names_distinct 1 11). discriminate.
Defined.





(** X12.  The page loop composes: writing the pages of [l1 ++ l2] into an
    archive is writing those of [l1] and then, if none of them failed, those
    of [l2] with the numbering carried on; this holds whatever the encoder
    does and whatever the archive already contains. *)
Theorem write_pages_app ext l1 : forall l2 zf k,
  write_pages ext zf (enumerate_from k (l1 ++ l2))
  = bind (write_pages ext zf (enumerate_from k l1))
         (fun zf1 => write_pages ext zf1 (enumerate_from (k + length l1) l2)).
Proof.
  induction l1 as [|img l1 IH]; intros l2 zf k.
  - cbn [app enumerate_from write_pages length]. rewrite Nat.add_0_r.
    unfold ret, bind. now destruct (write_pages ext zf (enumerate_from k l2)).
  - cbn [app enumerate_from length].
    destruct (Image_encode ext img "JPEG" 85) as [data|e] eqn:E.
    + rewrite !(write_pages_cons_returns ext _ _ _ _ _ E), IH.
      replace (S k + length l1) with (k + S (length l1)) by lia.
      destruct (write_pages ext (writestr zf (page_name (S k)) data)
                            (enumerate_from (S k) l1)) as [t [zf1|e]];
        cbn [bind trace outcome fst snd]; [|reflexivity].
      now destruct (write_pages ext zf1 (enumerate_from (k + S (length l1)) l2)).
    + now rewrite !(write_pages_cons_raises ext _ _ _ _ _ E).
Qed.
